(** * Used-car price prediction: the feature-encoding and inference contract

    A shallow embedding of [training_model.py] (the part that fixes the
    artifact contract: label encoders, the feature table and the persisted
    column list) and of [backend.py] (the [/predict] endpoint), followed by
    the properties of the serving path.

    Conventions.
    - Python [int] is [Z] (unbounded). A Python [float] is [pyfloat]: a finite
      value is the rational it denotes exactly, next to the two infinities and
      NaN. The only float operations of the endpoint, [max(0, v)] and
      [int(v)], are exact, so no rounding is modelled.
    - A Python [dict] whose insertion order is observable (it becomes the
      column order of a [DataFrame]) is an association list; a [dict] used as
      a lookup table is a [gmap].
    - A call that may raise returns [result]; [try]/[except] is a match on it.
    - The fitted regressor is opaque: a function from the one-row frame to a
      float, which may raise. *)

From Stdlib Require Import ZArith QArith Qround Lia Sorted.
From stdpp Require Import base option list strings gmap.

Local Open Scope string_scope.
Local Open Scope Z_scope.

(** ** Python values and exceptions *)

(** The exception classes the endpoint can meet. [except ValueError] selects
    the first one; [except Exception] selects all of them. The payload lists
    the offending labels or column names. *)
Inductive PyExn : Type :=
  | ValueError (info : list string)
  | KeyError (info : list string)
  | IndexError
  | OverflowError
  | OtherException (name : string).

Inductive result (A : Type) : Type :=
  | Ok (a : A)
  | Raise (e : PyExn).
Arguments Ok {A} a.
Arguments Raise {A} e.

Definition bind {A B : Type} (r : result A) (k : A -> result B) : result B :=
  match r with
  | Ok a => k a
  | Raise e => Raise e
  end.

Notation "'let*' x ':=' r 'in' k" := (bind r (fun x => k))
  (at level 10, x name, r at level 100, k at level 200,
   format "'[v' 'let*'  x  :=  r  'in' '/' k ']'").

(** [try: body except ValueError: handler] *)
Definition try_except_ValueError {A : Type} (body : result A) (handler : A)
  : result A :=
  match body with
  | Ok a => Ok a
  | Raise (ValueError _) => Ok handler
  | Raise e => Raise e
  end.

Inductive pyfloat : Type :=
  | Finite (q : Q)
  | PosInf
  | NegInf
  | NaN.

Inductive PyNum : Type :=
  | PyInt (z : Z)
  | PyFloat (f : pyfloat).

(** [a > b] on numbers; every comparison with NaN is false. *)
Definition py_gt (a b : PyNum) : bool :=
  match a, b with
  | PyInt x, PyInt y => y <? x
  | PyInt x, PyFloat (Finite q) => negb (Qle_bool (inject_Z x) q)
  | PyFloat (Finite q), PyInt y => negb (Qle_bool q (inject_Z y))
  | PyFloat (Finite p), PyFloat (Finite q) => negb (Qle_bool p q)
  | PyFloat PosInf, PyInt _ => true
  | PyFloat PosInf, PyFloat (Finite _) => true
  | PyFloat PosInf, PyFloat NegInf => true
  | PyInt _, PyFloat NegInf => true
  | PyFloat (Finite _), PyFloat NegInf => true
  | _, _ => false
  end.

(** [max(a, b)]: the first argument is kept unless the second is strictly
    greater. *)
Definition py_max (a b : PyNum) : PyNum :=
  if py_gt b a then b else a.

(** [int(x)]: truncation toward zero; the infinities and NaN raise. *)
Definition py_int (x : PyNum) : result Z :=
  match x with
  | PyInt z => Ok z
  | PyFloat (Finite q) => Ok (Z.quot (Qnum q) (Z.pos (Qden q)))
  | PyFloat NaN => Raise (ValueError [])
  | PyFloat _ => Raise OverflowError
  end.

(** [xs[0]] *)
Definition getitem0 {A : Type} (xs : list A) : result A :=
  match xs with
  | x :: _ => Ok x
  | [] => Raise IndexError
  end.

(** ** One-row data frames *)

(** A row with named columns, in column order. *)
Definition Row (V : Type) : Type := list (string * V).

Fixpoint assoc {V : Type} (k : string) (d : Row V) : option V :=
  match d with
  | [] => None
  | (k', v) :: d' => if decide (k = k') then Some v else assoc k d'
  end.

Definition columns {V : Type} (d : Row V) : list string := d.*1.

(** [df[names]] with a list of names: the named columns in the order of
    [names]; [KeyError] with the names that are not columns of [df]. The
    payload stands for the names the error reports, kept here as they occur
    in [names]. *)
Definition getitem_columns {V : Type} (df : Row V) (names : list string)
  : result (Row V) :=
  match mapM (fun n => pair n <$> assoc n df) names with
  | Some r => Ok r
  | None => Raise (KeyError (filter (fun n => assoc n df = None) names))
  end.

(** [df[names]] on a frame of several rows that share their columns. *)
Fixpoint frame_getitem {V : Type} (rows : list (Row V)) (names : list string)
  : result (list (Row V)) :=
  match rows with
  | [] => Ok []
  | r :: rows' =>
      let* r' := getitem_columns r names in
      let* rest := frame_getitem rows' names in
      Ok (r' :: rest)
  end.

(** ** sklearn's LabelEncoder *)

Record LabelEncoder : Type := { classes_ : list string }.

Fixpoint index_of (y : string) (cs : list string) : option nat :=
  match cs with
  | [] => None
  | c :: cs' => if decide (y = c) then Some O else S <$> index_of y cs'
  end.

(** [le.transform(ys)]: the position of each label in [classes_] (which
    [fit] leaves sorted and without repeats); [ValueError] when a label was
    never seen by [fit]. The payload stands for the labels the error reports,
    kept here as they occur in [ys]; the endpoint passes one label. *)
Definition transform (le : LabelEncoder) (ys : list string) : result (list Z) :=
  match mapM (fun y => Z.of_nat <$> index_of y (classes_ le)) ys with
  | Some codes => Ok codes
  | None =>
      Raise (ValueError (filter (fun y => index_of y (classes_ le) = None) ys))
  end.

(** [np.unique]: the distinct labels in ascending order. *)
Fixpoint insert_unique (s : string) (l : list string) : list string :=
  match l with
  | [] => [s]
  | x :: r =>
      match String.compare s x with
      | Lt => s :: l
      | Eq => l
      | Gt => x :: insert_unique s r
      end
  end.

Definition np_unique (l : list string) : list string :=
  foldr insert_unique [] l.

Definition fit (ys : list string) : LabelEncoder :=
  {| classes_ := np_unique ys |}.

(** [le.fit_transform(ys)]; every label of [ys] is a class, so the default
    code is never used. *)
Definition fit_transform (ys : list string) : LabelEncoder * list Z :=
  let le := fit ys in
  (le, (fun y => default 0 (Z.of_nat <$> index_of y (classes_ le))) <$> ys).

(** ** training_model.py *)

Module training_model.

(** A record of [cleaned_autocentral_data.csv]; the columns fed to the
    regressor as they are, fuel type and transmission among them, are
    numeric. *)
Record Listing : Type := {
  price : Z;
  year : Z;
  brand : string;
  model : string;
  mileage : Z;
  cv : Z;
  fuel_type : Z;
  transmission : Z
}.

Inductive cell : Type :=
  | Num (z : Z)
  | Str (s : string).

(** [df = df[df['price'] > 0].copy()] *)
Definition clean (df : list Listing) : list Listing :=
  filter (fun r => 0 < price r) df.

Definition features : list string :=
  ["year"; "mileage"; "cv"; "fuel_type"; "transmission";
   "brand_encoded"; "model_encoded"].

(** A row of [df] once the two encoded columns are added. *)
Definition df_row (r : Listing) (brand_code model_code : Z) : Row cell :=
  [("price", Num (price r)); ("year", Num (year r));
   ("brand", Str (brand r)); ("model", Str (model r));
   ("mileage", Num (mileage r)); ("cv", Num (cv r));
   ("fuel_type", Num (fuel_type r)); ("transmission", Num (transmission r));
   ("brand_encoded", Num brand_code); ("model_encoded", Num model_code)].

Fixpoint zip3 {A B C : Type} (xs : list A) (ys : list B) (zs : list C)
  : list (A * B * C) :=
  match xs, ys, zs with
  | x :: xs', y :: ys', z :: zs' => (x, y, z) :: zip3 xs' ys' zs'
  | _, _, _ => []
  end.

(** The encoders, the feature table with its target, and the feature names,
    as the script has them when it reaches the split. The split, the fit and
    the evaluation that follow, and their failures, are not modelled. *)
Record Artifacts : Type := {
  le_brand : LabelEncoder;
  le_model : LabelEncoder;
  X : result (list (Row cell));
  y : list Z;
  feature_names_pkl : list string
}.

Definition train (csv : list Listing) : Artifacts :=
  let df := clean csv in
  let '(leb, brand_encoded) := fit_transform (brand <$> df) in
  let '(lem, model_encoded) := fit_transform (model <$> df) in
  {| le_brand := leb;
     le_model := lem;
     X := frame_getitem
            ((fun '(r, b, m) => df_row r b m)
               <$> zip3 df brand_encoded model_encoded)
            features;
     y := price <$> df;
     feature_names_pkl := features |}.

End training_model.

(** ** backend.py *)

Module backend.

Module CarPredictionInput.
Record t : Type := {
  year : Z;
  brand : string;
  model : string;
  mileage : Z;
  cv : Z;
  fuel_type : string;
  transmission : string
}.
End CarPredictionInput.
Import CarPredictionInput.

(** The unpickled regressor: [predict df] is [model.predict(df)[0]] on a
    one-row frame. *)
Record Predictor : Type := { predict : Row Z -> result pyfloat }.

(** The four artifact files; [None] when [os.path.exists] is false. *)
Record Disk : Type := {
  MODEL_PATH : option Predictor;
  BRAND_ENCODER_PATH : option LabelEncoder;
  MODEL_ENCODER_PATH : option LabelEncoder;
  FEATURE_NAMES_PATH : option (list string)
}.

(** The module-level globals, [None] until loaded. *)
Record Globals : Type := {
  model : option Predictor;
  brand_encoder : option LabelEncoder;
  model_encoder : option LabelEncoder;
  feature_names : option (list string)
}.

(** [if os.path.exists(path): x = pickle.load(f)], the global keeps its
    initial [None] otherwise. A file that exists is taken to unpickle. *)
Definition load {A : Type} (file : option A) : option A :=
  match file with
  | Some obj => Some obj
  | None => None
  end.

Definition startup (d : Disk) : Globals :=
  {| model := load (MODEL_PATH d);
     brand_encoder := load (BRAND_ENCODER_PATH d);
     model_encoder := load (MODEL_ENCODER_PATH d);
     feature_names := load (FEATURE_NAMES_PATH d) |}.

(** Truth value of a global, as [all] tests it: [None] is false; an encoder
    is true; a fitted regressor is true (an ensemble counts its estimators,
    of which a fitted one has at least one); a list is true when it is not
    empty. *)
Definition truthy {A : Type} (o : option A) : bool :=
  match o with
  | Some _ => true
  | None => false
  end.

Definition truthy_list {A : Type} (o : option (list A)) : bool :=
  match o with
  | Some (_ :: _) => true
  | _ => false
  end.

Definition all (bs : list bool) : bool := forallb id bs.

Record HTTPException : Type := {
  status_code : Z;
  detail : string
}.

Record Response : Type := {
  input : CarPredictionInput.t;
  estimated_price_tnd : Z;
  message : string;
  timestamp : string
}.

Inductive reply : Type :=
  | Return (r : Response)
  | RaiseHTTP (e : HTTPException).

Definition fuel_mapping : gmap string Z :=
  {[ "Essence" := 0; "Diesel" := 1; "Hybrid" := 2 ]}.

(** [fuel_mapping.get(car.fuel_type, 0)] *)
Definition fuel_encoded (fuel : string) : Z :=
  default 0 (fuel_mapping !! fuel).

(** [1 if car.transmission == "Automatique" else 0] *)
Definition transmission_encoded (tr : string) : Z :=
  if decide (tr = "Automatique") then 1 else 0.

(** [age = 2025 - car.year] *)
Definition age (car : CarPredictionInput.t) : Z := 2025 - year car.

(** [try: encoder.transform([label])[0] except ValueError: -1] *)
Definition encoded (encoder : LabelEncoder) (label : string) : result Z :=
  try_except_ValueError
    (let* codes := transform encoder [label] in getitem0 codes)
    (-1).

Definition input_data (car : CarPredictionInput.t)
  (brand_code model_code : Z) : Row Z :=
  [("year", age car);
   ("mileage", mileage car);
   ("cv", cv car);
   ("fuel_type", fuel_encoded (fuel_type car));
   ("transmission", transmission_encoded (transmission car));
   ("brand_encoded", brand_code);
   ("model_encoded", model_code)].

(** [pd.DataFrame([input_data])[feature_names]] *)
Definition input_df (names : list string) (car : CarPredictionInput.t)
  (brand_code model_code : Z) : result (Row Z) :=
  getitem_columns (input_data car brand_code model_code) names.

(** [int(max(0, prediction))] *)
Definition served_price (prediction : pyfloat) : result Z :=
  py_int (py_max (PyInt 0) (PyFloat prediction)).

(** The answer of [GET /]. *)
Module Home.
Record t : Type := {
  status : string;
  model_loaded : bool;
  usage : string;
  timestamp : string
}.
End Home.

(** [x is not None] *)
Definition is_not_None {A : Type} (o : option A) : bool :=
  match o with
  | Some _ => true
  | None => false
  end.

Section Endpoint.

(** [str(e)] and [datetime.now().isoformat()] come from the runtime. *)
Variable py_str : PyExn -> string.
Variable now : string.

(** The body of the outer [try]. *)
Definition try_body (m : Predictor) (be me : LabelEncoder)
  (names : list string) (car : CarPredictionInput.t) : result Response :=
  let* brand_code := encoded be (brand car) in
  let* model_code := encoded me (CarPredictionInput.model car) in
  let* df := input_df names car brand_code model_code in
  let* prediction := predict m df in
  let* price := served_price prediction in
  Ok {| input := car;
        estimated_price_tnd := price;
        message := "Prediction successful";
        timestamp := now |}.

Definition predict_price (g : Globals) (car : CarPredictionInput.t)
  : reply :=
  if negb (all [truthy (model g); truthy (brand_encoder g);
                truthy (model_encoder g); truthy_list (feature_names g)])
  then
    RaiseHTTP
      {| status_code := 500;
         detail :=
           "Model or encoders not loaded. Run training_model.py first." |}
  else
    let body :=
      match model g, brand_encoder g, model_encoder g, feature_names g with
      | Some m, Some be, Some me, Some names => try_body m be me names car
      | _, _, _, _ => Raise (OtherException "AttributeError")
      end in
    match body with
    | Ok r => Return r
    | Raise e =>
        RaiseHTTP
          {| status_code := 400;
             detail := "Prediction error: " +:+ py_str e |}
    end.

Definition home (g : Globals) : Home.t :=
  {| Home.status := "alive";
     Home.model_loaded := is_not_None (model g);
     Home.usage := "Send POST request to /predict with car details";
     Home.timestamp := now |}.

End Endpoint.

End backend.

Import backend backend.CarPredictionInput.

(** ** Auxiliary definitions used by the statements *)

(** The code [encoded] settles on: the trained code of a known label, the
    sentinel otherwise. *)
Definition label_code (le : LabelEncoder) (label : string) : Z :=
  match index_of label (classes_ le) with
  | Some i => Z.of_nat i
  | None => -1
  end.

(** Python's [round(v)] on a finite float: the nearest integer, ties to the
    even one. *)
Definition py_round (q : Q) : Z :=
  let f := Qfloor q in
  match Qcompare (q - inject_Z f) (1 # 2) with
  | Lt => f
  | Gt => f + 1
  | Eq => if Z.even f then f else f + 1
  end.

(** The served price as the specification words it: [max(0, round(v))]. *)
Definition spec_served_price (q : Q) : Z := Z.max 0 (py_round q).

(** The row of the training table built from a listing and its codes. *)
Definition getitem_row (l : training_model.Listing) (b c : Z)
  : Row training_model.cell :=
  [("year", training_model.Num (training_model.year l));
   ("mileage", training_model.Num (training_model.mileage l));
   ("cv", training_model.Num (training_model.cv l));
   ("fuel_type", training_model.Num (training_model.fuel_type l));
   ("transmission", training_model.Num (training_model.transmission l));
   ("brand_encoded", training_model.Num b);
   ("model_encoded", training_model.Num c)].

(** Globals with every artifact loaded. *)
Definition loaded (m : backend.Predictor) (be me : LabelEncoder)
  (names : list string) : backend.Globals :=
  {| backend.model := Some m;
     backend.brand_encoder := Some be;
     backend.model_encoder := Some me;
     backend.feature_names := Some names |}.

(** The status the catch-all handler of [predict_price] reports. *)
Definition prediction_error (py_str : PyExn -> string) (e : PyExn)
  : backend.HTTPException :=
  {| backend.status_code := 400;
     backend.detail := "Prediction error: " +:+ py_str e |}.

Definition service_unavailable : backend.HTTPException :=
  {| backend.status_code := 500;
     backend.detail :=
       "Model or encoders not loaded. Run training_model.py first." |}.

(** What a reply tells the caller besides the echoed request and the time:
    the price, or the error. *)
Definition outcome (r : backend.reply) : Z + backend.HTTPException :=
  match r with
  | backend.Return resp => inl (backend.estimated_price_tnd resp)
  | backend.RaiseHTTP e => inr e
  end.

(** Strictly ascending for the order [np.unique] sorts by. *)
Definition ascending (l : list string) : Prop :=
  StronglySorted (fun a b => String.compare a b = Lt) l.

(** ** Sample data *)

Module examples.

Definition str0 (e : PyExn) : string :=
  match e with
  | ValueError _ => "ValueError"
  | KeyError _ => "KeyError"
  | IndexError => "IndexError"
  | OverflowError => "OverflowError"
  | OtherException name => name
  end.

Definition now0 : string := "2025-06-01T12:00:00".

Definition brands : LabelEncoder := fit ["Kia"; "BMW"; "Audi"; "Kia"].
Definition models : LabelEncoder := fit ["Rio"; "X5"; "A3"].

(** A regressor that answers the same value for every frame. *)
Definition constant (v : pyfloat) : Predictor :=
  {| predict := fun _ => Ok v |}.

Definition kia_rio : CarPredictionInput.t :=
  {| year := 2020; brand := "Kia"; CarPredictionInput.model := "Rio";
     mileage := 85000; cv := 5;
     fuel_type := "Essence"; transmission := "Manuelle" |}.

Definition unknown_brand : CarPredictionInput.t :=
  {| year := 2020; brand := "UnknownBrandXYZ";
     CarPredictionInput.model := "Rio";
     mileage := 85000; cv := 5;
     fuel_type := "Essence"; transmission := "Manuelle" |}.

Definition next_decade : CarPredictionInput.t :=
  {| year := 2030; brand := "Kia"; CarPredictionInput.model := "Rio";
     mileage := 0; cv := 5;
     fuel_type := "Hybrid"; transmission := "Automatique" |}.

Definition negative_inputs : CarPredictionInput.t :=
  {| year := 2020; brand := "Kia"; CarPredictionInput.model := "Rio";
     mileage := -85000; cv := -5;
     fuel_type := "Diesel"; transmission := "Manuelle" |}.

Definition stale_names : list string := ["year"; "color"].

Definition no_model_file : Disk :=
  {| MODEL_PATH := None;
     BRAND_ENCODER_PATH := Some brands;
     MODEL_ENCODER_PATH := Some models;
     FEATURE_NAMES_PATH := Some training_model.features |}.

Definition csv : list training_model.Listing :=
  [ {| training_model.price := 42000; training_model.year := 2019;
       training_model.brand := "Kia"; training_model.model := "Rio";
       training_model.mileage := 60000; training_model.cv := 5;
       training_model.fuel_type := 0; training_model.transmission := 0 |};
    {| training_model.price := 0; training_model.year := 2012;
       training_model.brand := "BMW"; training_model.model := "X5";
       training_model.mileage := 190000; training_model.cv := 11;
       training_model.fuel_type := 1; training_model.transmission := 1 |};
    {| training_model.price := 65000; training_model.year := 2021;
       training_model.brand := "Audi"; training_model.model := "A3";
       training_model.mileage := 30000; training_model.cv := 7;
       training_model.fuel_type := 1; training_model.transmission := 1 |} ].

Definition no_encoder_files : Disk :=
  {| MODEL_PATH := Some (constant (Finite (11 # 4)));
     BRAND_ENCODER_PATH := None;
     MODEL_ENCODER_PATH := None;
     FEATURE_NAMES_PATH := Some training_model.features |}.

Definition other_unknown_brand : CarPredictionInput.t :=
  {| year := 2020; brand := "AnotherBrand";
     CarPredictionInput.model := "Rio";
     mileage := 85000; cv := 5;
     fuel_type := "GPL"; transmission := "manual" |}.

(** The seven feature names in an order that is not the one in which
    [predict_price] writes its record. *)
Definition reordered_names : list string :=
  ["model_encoded"; "year"; "cv"; "brand_encoded"; "fuel_type";
   "transmission"; "mileage"].

(** A regressor that answers the value of the first column it is given. *)
Definition first_column : Predictor :=
  {| predict := fun df =>
       match df with
       | (_, v) :: _ => Ok (Finite (inject_Z v))
       | [] => Raise IndexError
       end |}.

(** A regressor that rejects every frame. *)
Definition failing (e : PyExn) : Predictor :=
  {| predict := fun _ => Raise e |}.

End examples.

(** * Properties of the serving path *)

(** ** Rows and column selection *)

Section Rows.
Context {V : Type}.
Implicit Types (d : Row V) (k : string) (v : V) (names : list string).

Lemma assoc_Some_elem_of d k v : assoc k d = Some v -> (k, v) ∈ d.
Proof.
  induction d as [|[k' v'] d IH]; simpl; [done|].
  case_decide as Hk.
  - intros [= ->]. subst. left.
  - intros H. right. auto.
Qed.

Lemma assoc_None d k : assoc k d = None <-> k ∉ columns d.
Proof.
  unfold columns. induction d as [|[k' v'] d IH]; simpl.
  - split; [intros _; apply not_elem_of_nil | done].
  - case_decide as Hk.
    + subst. split; [done|]. intros H. destruct H. left.
    + rewrite IH, not_elem_of_cons. tauto.
Qed.

Lemma assoc_is_Some d k : is_Some (assoc k d) <-> k ∈ columns d.
Proof.
  rewrite <- not_eq_None_Some, assoc_None.
  split; [apply dec_stable | tauto].
Qed.

Lemma assoc_NoDup d k v :
  NoDup (columns d) -> (assoc k d = Some v <-> (k, v) ∈ d).
Proof.
  intros Hnd. split; [apply assoc_Some_elem_of|].
  unfold columns in Hnd.
  induction d as [|[k' v'] d IH]; simpl in *; [by intros ?%elem_of_nil|].
  apply NoDup_cons in Hnd as [Hk' Hnd].
  intros [[= -> ->]|Hin]%elem_of_cons.
  - by rewrite decide_True.
  - rewrite decide_False; [auto|].
    intros ->. apply Hk'. apply (list_elem_of_fmap_2 fst) in Hin. done.
Qed.

(** A dict is read by key: the order of insertion does not matter. *)
Lemma assoc_Permutation d d' k :
  NoDup (columns d) -> d ≡ₚ d' -> assoc k d = assoc k d'.
Proof.
  intros Hnd Hp.
  assert (Hnd' : NoDup (columns d')).
  { unfold columns in *. by rewrite <- Hp. }
  apply option_eq. intros v.
  rewrite !assoc_NoDup by done. by rewrite Hp.
Qed.

Lemma getitem_columns_Ok d names r :
  getitem_columns d names = Ok r <->
  Forall2 (fun n c => c.1 = n /\ assoc n d = Some c.2) names r.
Proof.
  unfold getitem_columns.
  destruct (mapM _ names) as [r'|] eqn:Hm.
  - apply mapM_Some in Hm. split.
    + intros [= <-]. eapply Forall2_impl; [exact Hm|].
      intros n [n' v]. simpl. destruct (assoc n d); simpl; [|done].
      by intros [= <- <-].
    + intros H. f_equal.
      revert r H. induction Hm as [|n [n' v'] names r' Hn _ IH];
        intros r Hr; inversion Hr as [|? [n'' v''] ? r'' [Hc Ha]]; subst;
        [done|]. simpl in *. rewrite Ha in Hn. simpl in Hn.
      injection Hn as <- <-. f_equal. auto.
  - split; [done|]. intros H. exfalso.
    apply mapM_None in Hm. apply Exists_exists in Hm as (n & Hn & Hnone).
    apply list_elem_of_lookup in Hn as [i Hi].
    destruct (Forall2_lookup_l _ _ _ _ _ H Hi) as ([n' v] & _ & _ & Ha).
    simpl in Ha. rewrite Ha in Hnone. done.
Qed.

Lemma getitem_columns_columns d names r :
  getitem_columns d names = Ok r -> columns r = names.
Proof.
  rewrite getitem_columns_Ok. unfold columns.
  induction 1 as [|n c names r [Hc _] _ IH]; simpl; [done|]. by f_equal.
Qed.

Lemma getitem_columns_values d names r :
  getitem_columns d names = Ok r ->
  Forall (fun c => assoc c.1 d = Some c.2) r.
Proof.
  rewrite getitem_columns_Ok.
  induction 1 as [|n c names r [<- Ha] _ IH]; constructor; done.
Qed.

Lemma getitem_columns_total d names :
  names ⊆ columns d -> exists r, getitem_columns d names = Ok r.
Proof.
  intros Hsub. unfold getitem_columns.
  destruct (mapM _ names) as [r|] eqn:Hm; [eauto|].
  apply mapM_None, Exists_exists in Hm as (n & Hn & Hnone).
  apply Hsub, assoc_is_Some in Hn as [v Hv].
  rewrite Hv in Hnone. done.
Qed.

Lemma getitem_columns_missing d names n :
  n ∈ names -> n ∉ columns d ->
  exists missing, getitem_columns d names = Raise (KeyError missing)
                  /\ n ∈ missing.
Proof.
  intros Hn Hd. unfold getitem_columns.
  destruct (mapM _ names) as [r|] eqn:Hm.
  - apply mapM_Some in Hm.
    apply list_elem_of_lookup in Hn as [i Hi].
    destruct (Forall2_lookup_l _ _ _ _ _ Hm Hi) as (c & _ & Hc).
    apply assoc_None in Hd. rewrite Hd in Hc. done.
  - eexists. split; [done|]. apply list_elem_of_filter.
    split; [by apply assoc_None | done].
Qed.

Lemma getitem_columns_Permutation d d' names :
  NoDup (columns d) -> d ≡ₚ d' ->
  getitem_columns d names = getitem_columns d' names.
Proof.
  intros Hnd Hp. unfold getitem_columns.
  assert (He : forall n, assoc n d = assoc n d')
    by (intros; by apply assoc_Permutation).
  rewrite (mapM_ext _ (fun n => pair n <$> assoc n d')) by (intros; by rewrite He).
  destruct (mapM _ names); [done|]. do 2 f_equal.
  apply list_filter_iff. intros n. by rewrite He.
Qed.

End Rows.

(** ** Label encoding *)

Lemma index_of_None y cs : index_of y cs = None <-> y ∉ cs.
Proof.
  induction cs as [|c cs IH]; simpl.
  - split; [intros _; apply not_elem_of_nil | done].
  - case_decide as Hy.
    + subst. split; [done|]. intros H. destruct H. left.
    + rewrite fmap_None, IH, not_elem_of_cons. tauto.
Qed.

Lemma index_of_Some y cs i : index_of y cs = Some i -> cs !! i = Some y.
Proof.
  revert i. induction cs as [|c cs IH]; simpl; intros i; [done|].
  case_decide as Hy.
  - intros [= <-]. by subst.
  - destruct (index_of y cs) as [j|]; simpl; [|done].
    intros [= <-]. simpl. auto.
Qed.

Lemma transform_singleton le y :
  transform le [y] =
  match index_of y (classes_ le) with
  | Some i => Ok [Z.of_nat i]
  | None => Raise (ValueError [y])
  end.
Proof.
  unfold transform. simpl.
  destruct (index_of y (classes_ le)) as [i|] eqn:Hi; simpl; [done|].
  rewrite filter_cons, decide_True by done. done.
Qed.

Lemma encoded_label_code le y : encoded le y = Ok (label_code le y).
Proof.
  unfold encoded, label_code. rewrite transform_singleton.
  by destruct (index_of y (classes_ le)).
Qed.

Lemma label_code_unknown le y : y ∉ classes_ le -> label_code le y = -1.
Proof. intros H%index_of_None. unfold label_code. by rewrite H. Qed.

Lemma label_code_known le y :
  y ∈ classes_ le ->
  0 <= label_code le y /\ classes_ le !! Z.to_nat (label_code le y) = Some y.
Proof.
  intros Hin. unfold label_code.
  destruct (index_of y (classes_ le)) as [i|] eqn:Hi.
  - split; [lia|]. rewrite Nat2Z.id. by apply index_of_Some.
  - by apply index_of_None in Hi.
Qed.

(** ** Clamping and truncation *)

Lemma Qle_bool_0_r q : Qle_bool q (inject_Z 0) = true <-> (Qnum q <= 0)%Z.
Proof.
  unfold Qle_bool. simpl. rewrite Z.leb_le. lia.
Qed.

Lemma quot_nonpos a b : (a <= 0 -> 0 < b -> a ÷ b <= 0)%Z.
Proof.
  intros Ha Hb.
  assert (H : (0 <= (- a) ÷ b)%Z) by (apply Z.quot_pos; lia).
  rewrite Z.quot_opp_l in H by lia. lia.
Qed.

Lemma Qfloor_nonpos q : (Qnum q <= 0 -> Qfloor q <= 0)%Z.
Proof.
  destruct q as [n d]. simpl. intros Hn.
  assert (n / Z.pos d < 1)%Z; [|lia].
  apply Z.div_lt_upper_bound; lia.
Qed.

Lemma served_price_Finite q :
  served_price (Finite q) = Ok (Z.max 0 (Qfloor q)).
Proof.
  unfold served_price, py_max. simpl.
  destruct (Qle_bool q (inject_Z 0)) eqn:Hq; simpl.
  - apply Qle_bool_0_r in Hq. f_equal.
    pose proof (Qfloor_nonpos q Hq). lia.
  - assert (Hpos : (0 < Qnum q)%Z).
    { apply Z.nle_gt. intros H%Qle_bool_0_r. congruence. }
    f_equal. destruct q as [n d]. simpl in *.
    rewrite Z.quot_div_nonneg by lia.
    assert (0 <= n / Z.pos d)%Z by (apply Z.div_pos; lia). lia.
Qed.

Lemma served_price_nonneg v p : served_price v = Ok p -> 0 <= p.
Proof.
  destruct v as [q| | |].
  - rewrite served_price_Finite. intros [= <-]. lia.
  - done.
  - intros [= <-]. done.
  - intros [= <-]. done.
Qed.

Lemma served_price_total v : v ≠ PosInf -> exists p, served_price v = Ok p.
Proof.
  destruct v as [q| | |]; intros Hv; [|done| |].
  - rewrite served_price_Finite. eauto.
  - by exists 0.
  - by exists 0.
Qed.

(** ** The endpoint *)

Lemma input_data_columns car bc mc :
  columns (input_data car bc mc) = training_model.features.
Proof. reflexivity. Qed.

Lemma input_data_NoDup car bc mc : NoDup (columns (input_data car bc mc)).
Proof.
  rewrite input_data_columns. apply (bool_decide_unpack _). by vm_compute.
Qed.

Lemma input_df_value names car bc mc df c :
  input_df names car bc mc = Ok df -> c ∈ df ->
  assoc c.1 (input_data car bc mc) = Some c.2.
Proof.
  intros Hdf Hc. apply getitem_columns_values in Hdf.
  rewrite Forall_forall in Hdf. by apply Hdf.
Qed.

Lemma input_df_has names car bc mc df n v :
  input_df names car bc mc = Ok df -> n ∈ names ->
  assoc n (input_data car bc mc) = Some v -> (n, v) ∈ df.
Proof.
  intros Hdf Hn Hv. apply getitem_columns_Ok in Hdf.
  apply list_elem_of_lookup in Hn as [i Hi].
  destruct (Forall2_lookup_l _ _ _ _ _ Hdf Hi) as ([n' v'] & Hc & Hn' & Hv').
  simpl in *. subst n'. rewrite Hv in Hv'. injection Hv' as <-.
  apply list_elem_of_lookup. eauto.
Qed.

(** Reads off the value of a column of the frame [Hdf] from the record. *)
Ltac column_value Hdf :=
  let n := fresh "n" in
  let v := fresh "v" in
  let Hc := fresh "Hc" in
  let Hn := fresh "Hn" in
  intros [n v] Hc Hn; simpl in Hn; subst n;
  apply (input_df_value _ _ _ _ _ _ Hdf) in Hc; simpl in Hc;
  by injection Hc.

(** Replaces the codes of a successful encoding by [label_code]. *)
Ltac label_codes Hb Hm :=
  rewrite encoded_label_code in Hb; injection Hb as <-;
  rewrite encoded_label_code in Hm; injection Hm as <-.

Section Serving.

Variable py_str : PyExn -> string.
Variable now : string.

Lemma predict_price_absent g car :
  backend.model g = None \/ brand_encoder g = None \/
  model_encoder g = None \/ feature_names g = None ->
  predict_price py_str now g car = RaiseHTTP service_unavailable.
Proof.
  unfold predict_price. destruct g as [m be me names]. simpl.
  intros [->|[->|[->| ->]]]; simpl; [done| | |].
  - by destruct m.
  - by destruct m, be.
  - by destruct m, be, me.
Qed.

Lemma predict_price_loaded m be me names car :
  names ≠ [] ->
  predict_price py_str now (loaded m be me names) car =
  match try_body now m be me names car with
  | Ok r => Return r
  | Raise e => RaiseHTTP (prediction_error py_str e)
  end.
Proof. destruct names; [done|]. reflexivity. Qed.

Lemma try_body_codes m be me names car :
  try_body now m be me names car =
  let* df := input_df names car (label_code be (brand car))
               (label_code me (CarPredictionInput.model car)) in
  let* prediction := predict m df in
  let* price := served_price prediction in
  Ok {| input := car;
        estimated_price_tnd := price;
        message := "Prediction successful";
        timestamp := now |}.
Proof. unfold try_body. rewrite !encoded_label_code. reflexivity. Qed.

Lemma predict_price_nonneg g car r :
  predict_price py_str now g car = Return r -> 0 <= estimated_price_tnd r.
Proof.
  unfold predict_price. case_match; [done|].
  destruct (backend.model g) as [m|], (brand_encoder g) as [be|],
    (model_encoder g) as [me|], (feature_names g) as [names|]; try done.
  rewrite try_body_codes.
  destruct (input_df _ _ _ _) as [df|]; simpl; [|done].
  destruct (predict m df) as [v|]; simpl; [|done].
  destruct (served_price v) as [p|] eqn:Hp; simpl; [|done].
  intros [= <-]. simpl. by eapply served_price_nonneg.
Qed.

(** With every artifact loaded and a feature list that names only columns
    of the record, both labels are encoded, the frame is built, and the
    request is answered as soon as the regressor returns a number other than
    [+inf]. *)
Lemma predict_price_returns m be me names car :
  names ≠ [] -> names ⊆ training_model.features ->
  exists bc mc df,
    encoded be (brand car) = Ok bc /\
    encoded me (CarPredictionInput.model car) = Ok mc /\
    input_df names car bc mc = Ok df /\
    forall v, predict m df = Ok v -> v ≠ PosInf ->
      exists p, served_price v = Ok p /\ 0 <= p /\
        predict_price py_str now (loaded m be me names) car =
        Return {| input := car;
                  estimated_price_tnd := p;
                  message := "Prediction successful";
                  timestamp := now |}.
Proof.
  intros Hne Hsub.
  set (bc := label_code be (brand car)).
  set (mc := label_code me (CarPredictionInput.model car)).
  destruct (getitem_columns_total (input_data car bc mc) names)
    as [df Hdf]; [by rewrite input_data_columns|].
  exists bc, mc, df.
  split; [apply encoded_label_code|]. split; [apply encoded_label_code|].
  split; [done|]. intros v Hv Hinf.
  destruct (served_price_total v Hinf) as [p Hp].
  exists p. split; [done|]. split; [by eapply served_price_nonneg|].
  rewrite predict_price_loaded, try_body_codes by done.
  fold bc mc. unfold input_df. rewrite Hdf. simpl. rewrite Hv. simpl.
  by rewrite Hp.
Qed.

End Serving.

(** ** The training table *)

Lemma frame_getitem_year (df : list training_model.Listing) :
  forall bs ms : list Z,
    length bs = length df -> length ms = length df ->
    exists rows,
      frame_getitem
        ((fun '(r, b, m) => training_model.df_row r b m)
           <$> training_model.zip3 df bs ms)
        training_model.features = Ok rows /\
      assoc "year" <$> rows
      = (fun l => Some (training_model.Num (training_model.year l))) <$> df.
Proof.
  induction df as [|l df IH]; intros bs ms Hb Hm.
  - exists []. by destruct bs, ms.
  - destruct bs as [|b bs], ms as [|c ms]; simpl in Hb, Hm; try lia.
    destruct (IH bs ms) as (rows & Hrows & Hyear); [lia..|].
    exists (getitem_row l b c :: rows). split.
    + change (bind (getitem_columns (training_model.df_row l b c)
                      training_model.features)
                (fun r' =>
                   bind (frame_getitem
                           ((fun '(r, b, m) => training_model.df_row r b m)
                              <$> training_model.zip3 df bs ms)
                           training_model.features)
                     (fun rest => Ok (r' :: rest)))
              = Ok (getitem_row l b c :: rows)).
      rewrite Hrows. reflexivity.
    + cbn [fmap list_fmap]. f_equal. exact Hyear.
Qed.

Lemma fit_transform_length ys : length (fit_transform ys).2 = length ys.
Proof. unfold fit_transform. simpl. by rewrite length_fmap. Qed.

Lemma train_feature_names csv :
  training_model.feature_names_pkl (training_model.train csv)
  = training_model.features.
Proof.
  unfold training_model.train.
  destruct (fit_transform (training_model.brand <$> _)) as [leb bs].
  by destruct (fit_transform (training_model.model <$> _)) as [lem ms].
Qed.

(** ** The contract *)

Section Contract.

Variable py_str : PyExn -> string.
Variable now : string.

Implicit Types (m : Predictor) (be me : LabelEncoder)
  (names : list string) (car : CarPredictionInput.t) (bc mc : Z).

(** C1. Whenever the frame of a request is built, its columns are the
    persisted feature-name list, in that order; each column holds the value
    the record binds to its name; the same frame results from the record
    written in any other order. This frame is what [predict_price] hands to
    the regressor: with a non-empty name list, whatever the regressor is, the
    reply is the regressor's answer on this very frame, clamped and
    converted, or the 400 error of the exception it raises there; so the
    reply depends on the regressor only through its answer on this frame. *)
Theorem feature_vector_follows_feature_names m be me names car bc mc df :
  encoded be (brand car) = Ok bc ->
  encoded me (CarPredictionInput.model car) = Ok mc ->
  input_df names car bc mc = Ok df ->
  columns df = names /\
  Forall (fun c => assoc c.1 (input_data car bc mc) = Some c.2) df /\
  (forall record,
      input_data car bc mc ≡ₚ record ->
      getitem_columns record names = Ok df) /\
  (forall m', predict m' df = predict m df ->
      predict_price py_str now (loaded m' be me names) car =
      predict_price py_str now (loaded m be me names) car) /\
  (forall m', names ≠ [] ->
      predict_price py_str now (loaded m' be me names) car =
      match predict m' df with
      | Ok v =>
          match served_price v with
          | Ok p =>
              Return {| input := car;
                        estimated_price_tnd := p;
                        message := "Prediction successful";
                        timestamp := now |}
          | Raise e => RaiseHTTP (prediction_error py_str e)
          end
      | Raise e => RaiseHTTP (prediction_error py_str e)
      end).
Proof.
  intros Hb Hm Hdf. split; [by eapply getitem_columns_columns|].
  split; [by eapply getitem_columns_values|]. split; [|split].
  - intros record Hp. rewrite <- Hdf. symmetry.
    apply getitem_columns_Permutation; [apply input_data_NoDup | done].
  - intros m' Hm'. destruct names as [|n ns]; [done|].
    label_codes Hb Hm.
    rewrite !predict_price_loaded, !try_body_codes by done.
    rewrite Hdf. simpl. by rewrite Hm'.
  - intros m' Hne. label_codes Hb Hm.
    rewrite predict_price_loaded, try_body_codes by done.
    rewrite Hdf. simpl.
    destruct (predict m' df) as [v|e]; simpl; [|done].
    by destruct (served_price v).
Qed.

(** C2. A brand or model outside the encoder's classes makes [transform]
    raise [ValueError], which [predict_price] replaces by the code [-1]; the
    frame is built with that code, and the request is answered whenever the
    regressor returns a number other than [+inf]. Any failure reported is
    one of the regressor or of the final conversion. *)
Theorem unknown_category_falls_back m be me names car :
  names ≠ [] -> names ⊆ training_model.features ->
  exists bc mc df,
    encoded be (brand car) = Ok bc /\
    encoded me (CarPredictionInput.model car) = Ok mc /\
    (brand car ∉ classes_ be ->
       transform be [brand car] = Raise (ValueError [brand car]) /\
       bc = -1) /\
    (CarPredictionInput.model car ∉ classes_ me ->
       transform me [CarPredictionInput.model car]
       = Raise (ValueError [CarPredictionInput.model car]) /\
       mc = -1) /\
    input_df names car bc mc = Ok df /\
    (forall c, c ∈ df -> c.1 = "brand_encoded" -> c.2 = bc) /\
    (forall c, c ∈ df -> c.1 = "model_encoded" -> c.2 = mc) /\
    (forall v, predict m df = Ok v -> v ≠ PosInf ->
       exists r, predict_price py_str now (loaded m be me names) car
                 = Return r /\ 0 <= estimated_price_tnd r) /\
    (forall e, predict_price py_str now (loaded m be me names) car
               = RaiseHTTP e ->
       (exists exn, predict m df = Raise exn /\
                    e = prediction_error py_str exn) \/
       (predict m df = Ok PosInf /\
        e = prediction_error py_str OverflowError)).
Proof.
  intros Hne Hsub.
  destruct (predict_price_returns py_str now m be me names car Hne Hsub)
    as (bc & mc & df & Hb & Hm & Hdf & Hret).
  exists bc, mc, df. do 2 (split; [done|]).
  label_codes Hb Hm. split.
  { intros Hb. split; [|by apply label_code_unknown].
    rewrite transform_singleton. apply index_of_None in Hb. by rewrite Hb. }
  split.
  { intros Hm. split; [|by apply label_code_unknown].
    rewrite transform_singleton. apply index_of_None in Hm. by rewrite Hm. }
  split; [done|].
  split; [column_value Hdf|]. split; [column_value Hdf|]. split.
  { intros v Hv Hinf. destruct (Hret v Hv Hinf) as (p & _ & Hp & ->).
    eauto. }
  intros e. rewrite predict_price_loaded, try_body_codes by done.
  rewrite Hdf. simpl.
  destruct (predict m df) as [v|exn]; simpl.
  - destruct v as [q| | |]; [rewrite served_price_Finite| | |]; simpl;
      try done.
    intros [= <-]. by right.
  - intros [= <-]. left. eauto.
Qed.

(** C3. When one of the four globals is [None], every request is refused
    with status 500 and the fixed detail, whatever the car and the other
    globals are; this reply is never one of the catch-all handler. *)
Theorem absent_artifact_service_unavailable (g : Globals) car :
  backend.model g = None \/ brand_encoder g = None \/
  model_encoder g = None \/ feature_names g = None ->
  predict_price py_str now g car = RaiseHTTP service_unavailable /\
  status_code service_unavailable = 500 /\
  (forall exn, service_unavailable ≠ prediction_error py_str exn) /\
  (forall exn,
      status_code service_unavailable
      ≠ status_code (prediction_error py_str exn)).
Proof.
  intros Habs. split; [by apply predict_price_absent|].
  split; [done|]. split; intros exn; [|done].
  intros H. by apply (f_equal status_code) in H.
Qed.

(** C4 (amended). For a finite regressor output [q] the served price is
    [max(0, floor(q))]: the fraction is dropped, not rounded, and the price
    is never negative. No reply of the endpoint carries a negative price. *)
Theorem served_price_truncates m be me names car bc mc df (q : Q) :
  names ≠ [] ->
  encoded be (brand car) = Ok bc ->
  encoded me (CarPredictionInput.model car) = Ok mc ->
  input_df names car bc mc = Ok df ->
  predict m df = Ok (Finite q) ->
  exists r,
    predict_price py_str now (loaded m be me names) car = Return r /\
    estimated_price_tnd r = Z.max 0 (Qfloor q) /\
    0 <= estimated_price_tnd r /\
    ((0 < q)%Q ->
     (inject_Z (estimated_price_tnd r) <= q)%Q /\
     (q < inject_Z (estimated_price_tnd r + 1))%Q) /\
    ((q <= 0)%Q -> estimated_price_tnd r = 0) /\
    (forall g' car' r',
        predict_price py_str now g' car' = Return r' ->
        0 <= estimated_price_tnd r').
Proof.
  intros Hne Hb Hm Hdf Hq. label_codes Hb Hm. eexists. split.
  { rewrite predict_price_loaded, try_body_codes by done.
    rewrite Hdf. simpl. rewrite Hq. simpl.
    rewrite served_price_Finite. simpl. reflexivity. }
  simpl. split; [done|]. split; [lia|]. split; [|split].
  - intros Hpos.
    assert (0 <= Qfloor q).
    { change 0 with (Qfloor 0). apply Qfloor_resp_le.
      by apply Qlt_le_weak. }
    rewrite Z.max_r by done. split; [apply Qfloor_le | apply Qlt_floor].
  - intros Hle.
    assert (Qfloor q <= 0).
    { change 0 with (Qfloor 0). by apply Qfloor_resp_le. }
    lia.
  - intros g' car' r'. apply predict_price_nonneg.
Qed.

(** C5. The age is [2025 - year] for every integer year; it is negative
    for a year after 2025; it is the value of every "year" column of the
    frame, and such a request is answered like any other. *)
Theorem age_is_2025_minus_year m be me names car :
  names ≠ [] -> names ⊆ training_model.features ->
  age car = 2025 - year car /\
  (2025 < year car -> age car < 0) /\
  exists bc mc df,
    encoded be (brand car) = Ok bc /\
    encoded me (CarPredictionInput.model car) = Ok mc /\
    input_df names car bc mc = Ok df /\
    ("year" ∈ names -> ("year", 2025 - year car) ∈ df) /\
    (forall c, c ∈ df -> c.1 = "year" -> c.2 = 2025 - year car) /\
    (forall v, predict m df = Ok v -> v ≠ PosInf ->
       exists r, predict_price py_str now (loaded m be me names) car
                 = Return r).
Proof.
  intros Hne Hsub. split; [done|]. split; [unfold age; lia|].
  destruct (predict_price_returns py_str now m be me names car Hne Hsub)
    as (bc & mc & df & Hb & Hm & Hdf & Hret).
  exists bc, mc, df. do 3 (split; [done|]). split; [|split].
  - intros Hin. by eapply input_df_has.
  - column_value Hdf.
  - intros v Hv Hinf. destruct (Hret v Hv Hinf) as (p & _ & _ & ->). eauto.
Qed.

(** C6. In the training table the column named "year" holds the calendar
    year of each listing kept, and "year" is a persisted feature name. At
    serving time, with the persisted names, the value bound to "year" is
    [2025 - year], which no calendar year equals; the same holds for every
    "year" column under any feature-name list. *)
Theorem year_slot_carries_age (csv : list training_model.Listing) car bc mc :
  (exists rows,
      training_model.X (training_model.train csv) = Ok rows /\
      assoc "year" <$> rows
      = (fun l => Some (training_model.Num (training_model.year l)))
          <$> training_model.clean csv) /\
  "year" ∈ training_model.feature_names_pkl (training_model.train csv) /\
  (exists df,
      input_df (training_model.feature_names_pkl (training_model.train csv))
        car bc mc = Ok df /\
      assoc "year" df = Some (2025 - year car) /\
      assoc "year" df ≠ Some (year car)) /\
  (forall names df c,
      input_df names car bc mc = Ok df -> c ∈ df -> c.1 = "year" ->
      c.2 = 2025 - year car /\ c.2 ≠ year car).
Proof.
  split; [|split; [|split]].
  - unfold training_model.train.
    pose proof (fit_transform_length
                  (training_model.brand <$> training_model.clean csv)) as Hb.
    pose proof (fit_transform_length
                  (training_model.model <$> training_model.clean csv)) as Hm.
    destruct (fit_transform (training_model.brand <$> _)) as [leb bs].
    destruct (fit_transform (training_model.model <$> _)) as [lem ms].
    simpl in *. rewrite length_fmap in Hb, Hm.
    by apply frame_getitem_year.
  - rewrite train_feature_names. left.
  - rewrite train_feature_names. eexists. split; [reflexivity|].
    change (Some (age car) = Some (2025 - year car)
            /\ Some (age car) ≠ Some (year car)).
    unfold age. split; [done|]. intros [= H]. lia.
  - intros names df [n v] Hdf Hc Hn. simpl in Hn. subst n.
    apply (input_df_value _ _ _ _ _ _ Hdf) in Hc. simpl in Hc.
    injection Hc as <-. simpl. unfold age. split; lia.
Qed.

(** C7. The fuel mapping is defined on every string, takes its value in
    [{0, 1, 2}], sends "Essence" to 0, "Diesel" to 1, "Hybrid" to 2, and
    every other string to 0. *)
Theorem fuel_mapping_total (fuel : string) :
  (fuel_encoded fuel = 0 \/ fuel_encoded fuel = 1 \/ fuel_encoded fuel = 2) /\
  fuel_encoded "Essence" = 0 /\
  fuel_encoded "Diesel" = 1 /\
  fuel_encoded "Hybrid" = 2 /\
  (fuel ∉ ["Essence"; "Diesel"; "Hybrid"] -> fuel_encoded fuel = 0) /\
  fuel_encoded fuel =
    (if decide (fuel = "Essence") then 0
     else if decide (fuel = "Diesel") then 1
     else if decide (fuel = "Hybrid") then 2
     else 0).
Proof.
  assert (Hcase : fuel_encoded fuel =
    (if decide (fuel = "Essence") then 0
     else if decide (fuel = "Diesel") then 1
     else if decide (fuel = "Hybrid") then 2
     else 0)).
  { unfold fuel_encoded, fuel_mapping.
    repeat case_decide; simplify_map_eq; done. }
  split; [|split; [done|split; [done|split; [done|split; [|done]]]]].
  - rewrite Hcase. repeat case_decide; auto.
  - intros Hnot. rewrite Hcase.
    repeat case_decide; try done; exfalso; apply Hnot; subst;
      repeat constructor.
Qed.

(** C8. The transmission code is 1 exactly for the string "Automatique"
    and 0 for every other string. *)
Theorem transmission_binary (tr : string) :
  (transmission_encoded tr = 1 <-> tr = "Automatique") /\
  (transmission_encoded tr = 0 <-> tr ≠ "Automatique") /\
  (transmission_encoded tr = 0 \/ transmission_encoded tr = 1).
Proof.
  unfold transmission_encoded. case_decide; intuition congruence.
Qed.

(** C9 (amended). When the feature-name list holds a name that is not a
    column of the record, the selection raises [KeyError] and the request
    fails through the catch-all handler: status 400 with the "Prediction
    error" detail, as for any other failure of the body, and not the 500 of
    an unloaded bundle. *)
Theorem missing_field_is_prediction_error m be me names car (n : string) :
  n ∈ names -> n ∉ training_model.features ->
  exists missing,
    n ∈ missing /\
    predict_price py_str now (loaded m be me names) car
    = RaiseHTTP (prediction_error py_str (KeyError missing)) /\
    status_code (prediction_error py_str (KeyError missing)) = 400 /\
    detail (prediction_error py_str (KeyError missing))
    = "Prediction error: " +:+ py_str (KeyError missing) /\
    prediction_error py_str (KeyError missing) ≠ service_unavailable.
Proof.
  intros Hn Hcol.
  destruct (getitem_columns_missing
              (input_data car (label_code be (brand car))
                 (label_code me (CarPredictionInput.model car))) names n)
    as (missing & Hraise & Hmiss); [done | by rewrite input_data_columns |].
  exists missing. split; [done|]. split; [|split; [done|split; [done|]]].
  - rewrite predict_price_loaded, try_body_codes
      by (intros ->; by apply elem_of_nil in Hn).
    unfold input_df. rewrite Hraise. reflexivity.
  - intros H. by apply (f_equal status_code) in H.
Qed.

(** C10. Mileage and horsepower are not range-checked: whatever their
    sign, the frame holds them unchanged under "mileage" and "cv", and the
    request is answered with a non-negative integer price whenever the
    regressor returns a number other than [+inf]. *)
Theorem negative_mileage_cv_not_validated m be me names car :
  names ≠ [] -> names ⊆ training_model.features ->
  exists bc mc df,
    encoded be (brand car) = Ok bc /\
    encoded me (CarPredictionInput.model car) = Ok mc /\
    input_df names car bc mc = Ok df /\
    ("mileage" ∈ names -> ("mileage", mileage car) ∈ df) /\
    ("cv" ∈ names -> ("cv", cv car) ∈ df) /\
    (forall c, c ∈ df -> c.1 = "mileage" -> c.2 = mileage car) /\
    (forall c, c ∈ df -> c.1 = "cv" -> c.2 = cv car) /\
    (forall v, predict m df = Ok v -> v ≠ PosInf ->
       exists r, predict_price py_str now (loaded m be me names) car
                 = Return r /\ 0 <= estimated_price_tnd r).
Proof.
  intros Hne Hsub.
  destruct (predict_price_returns py_str now m be me names car Hne Hsub)
    as (bc & mc & df & Hb & Hm & Hdf & Hret).
  exists bc, mc, df. do 3 (split; [done|]).
  split; [intros Hin; by eapply input_df_has|].
  split; [intros Hin; by eapply input_df_has|].
  split; [column_value Hdf|]. split; [column_value Hdf|].
  intros v Hv Hinf. destruct (Hret v Hv Hinf) as (p & _ & Hp & ->). eauto.
Qed.

End Contract.

(** ** The contract on the sample data *)

Import examples.

Lemma feature_vector_follows_feature_names_witness :
  encoded brands (brand kia_rio) = Ok 2 /\
  encoded models (CarPredictionInput.model kia_rio) = Ok 1 /\
  columns (input_data kia_rio 2 1) ≠ reordered_names /\
  input_df reordered_names kia_rio 2 1
  = Ok [("model_encoded", 1); ("year", 5); ("cv", 5); ("brand_encoded", 2);
        ("fuel_type", 0); ("transmission", 0); ("mileage", 85000)] /\
  columns
    [("model_encoded", 1); ("year", 5); ("cv", 5); ("brand_encoded", 2);
     ("fuel_type", 0); ("transmission", 0); ("mileage", 85000)]
  = reordered_names /\
  predict_price str0 now0
    (loaded first_column brands models reordered_names) kia_rio
  = Return {| input := kia_rio;
              estimated_price_tnd := 1;
              message := "Prediction successful";
              timestamp := now0 |} /\
  predict_price str0 now0
    (loaded first_column brands models training_model.features) kia_rio
  = Return {| input := kia_rio;
              estimated_price_tnd := 5;
              message := "Prediction successful";
              timestamp := now0 |}.
Proof.
  do 2 (split; [reflexivity|]). split; [done|]. split; [reflexivity|].
  destruct (feature_vector_follows_feature_names str0 now0
              first_column brands models reordered_names kia_rio 2 1
              [("model_encoded", 1); ("year", 5); ("cv", 5);
               ("brand_encoded", 2); ("fuel_type", 0); ("transmission", 0);
               ("mileage", 85000)])
    as (Hcols & _ & _ & _ & Hhanded); [reflexivity..|].
  split; [exact Hcols|]. split.
  - rewrite (Hhanded first_column) by done. reflexivity.
  - destruct (feature_vector_follows_feature_names str0 now0
                first_column brands models training_model.features kia_rio
                2 1 (input_data kia_rio 2 1))
      as (_ & _ & _ & _ & Hhanded'); [reflexivity..|].
    rewrite (Hhanded' first_column) by done. reflexivity.
Defined.

Lemma unknown_category_falls_back_witness :
  ("UnknownBrandXYZ" ∉ classes_ brands) /\
  exists bc mc df,
    encoded brands "UnknownBrandXYZ" = Ok bc /\
    encoded models "Rio" = Ok mc /\
    bc = -1 /\
    input_df training_model.features unknown_brand bc mc = Ok df.
Proof.
  assert (Hun : "UnknownBrandXYZ" ∉ classes_ brands)
    by (apply (bool_decide_unpack _); done).
  split; [exact Hun|].
  destruct (unknown_category_falls_back str0 now0
              (constant (Finite (11 # 4))) brands models
              training_model.features unknown_brand)
    as (bc & mc & df & Hb & Hm & Hub & _ & Hdf & _); [done | done |].
  exists bc, mc, df. destruct (Hub Hun) as [_ Hbc]. auto.
Defined.

Lemma absent_artifact_service_unavailable_witness :
  backend.model (startup no_model_file) = None /\
  predict_price str0 now0 (startup no_model_file) kia_rio
  = RaiseHTTP service_unavailable.
Proof.
  split; [reflexivity|].
  refine (proj1 (absent_artifact_service_unavailable str0 now0
                   (startup no_model_file) kia_rio _)).
  left. reflexivity.
Defined.

(** C4, as worded: a regressor output of 2.75 is served as 2, while
    [max(0, round(2.75))] is 3. *)
Lemma served_price_is_not_rounded :
  exists r,
    predict_price str0 now0
      (loaded (constant (Finite (11 # 4))) brands models
         training_model.features) kia_rio = Return r /\
    estimated_price_tnd r = 2 /\
    spec_served_price (11 # 4) = 3 /\
    estimated_price_tnd r ≠ spec_served_price (11 # 4).
Proof. eexists. split; [reflexivity|]. by vm_compute. Qed.

Lemma served_price_truncates_witness :
  training_model.features ≠ [] /\
  encoded brands (brand kia_rio) = Ok 2 /\
  encoded models (CarPredictionInput.model kia_rio) = Ok 1 /\
  predict (constant (Finite (11 # 4)))
    [("year", 5); ("mileage", 85000); ("cv", 5); ("fuel_type", 0);
     ("transmission", 0); ("brand_encoded", 2); ("model_encoded", 1)]
  = Ok (Finite (11 # 4)) /\
  exists r,
    predict_price str0 now0
      (loaded (constant (Finite (11 # 4))) brands models
         training_model.features) kia_rio = Return r /\
    estimated_price_tnd r = Z.max 0 (Qfloor (11 # 4)).
Proof.
  split; [done|]. do 3 (split; [reflexivity|]).
  destruct (served_price_truncates str0 now0
              (constant (Finite (11 # 4))) brands models
              training_model.features kia_rio 2 1
              [("year", 5); ("mileage", 85000); ("cv", 5); ("fuel_type", 0);
               ("transmission", 0); ("brand_encoded", 2);
               ("model_encoded", 1)]
              (11 # 4))
    as (r & Hr & Hp & _); [done | reflexivity.. |].
  exists r. auto.
Defined.

Lemma age_is_2025_minus_year_witness :
  2025 < year next_decade /\
  age next_decade = 2025 - 2030 /\
  age next_decade < 0.
Proof.
  destruct (age_is_2025_minus_year str0 now0
              (constant (Finite (11 # 4))) brands models
              training_model.features next_decade)
    as (Hage & Hneg & _); [done | done |].
  split; [reflexivity|]. split; [exact Hage|]. apply Hneg. reflexivity.
Defined.

Lemma year_slot_carries_age_witness :
  exists df,
    input_df
      (training_model.feature_names_pkl (training_model.train csv))
      kia_rio 2 1 = Ok df /\
    assoc "year" df = Some (2025 - 2020) /\
    assoc "year" df ≠ Some 2020.
Proof.
  exact (proj1 (proj2 (proj2 (year_slot_carries_age csv kia_rio 2 1)))).
Defined.

(** C9, as worded: a feature list naming the unknown column "color" makes
    the request fail through the catch-all handler itself. *)
Lemma schema_mismatch_is_not_distinguished :
  predict_price str0 now0
    (loaded (constant (Finite (11 # 4))) brands models stale_names) kia_rio
  = RaiseHTTP (prediction_error str0 (KeyError ["color"])) /\
  ~ (exists e,
        predict_price str0 now0
          (loaded (constant (Finite (11 # 4))) brands models stale_names)
          kia_rio = RaiseHTTP e /\
        forall exn, e ≠ prediction_error str0 exn).
Proof.
  split; [reflexivity|].
  intros (e & He & Hdist). injection He as <-.
  by apply (Hdist (KeyError ["color"])).
Qed.

Lemma missing_field_is_prediction_error_witness :
  "color" ∈ stale_names /\
  ("color" ∉ training_model.features) /\
  exists missing,
    "color" ∈ missing /\
    predict_price str0 now0
      (loaded (constant (Finite (11 # 4))) brands models stale_names) kia_rio
    = RaiseHTTP (prediction_error str0 (KeyError missing)).
Proof.
  assert (Hin : "color" ∈ stale_names) by (apply (bool_decide_unpack _); done).
  assert (Hout : "color" ∉ training_model.features)
    by (apply (bool_decide_unpack _); done).
  split; [exact Hin|]. split; [exact Hout|].
  destruct (missing_field_is_prediction_error str0 now0
              (constant (Finite (11 # 4))) brands models stale_names kia_rio
              "color" Hin Hout)
    as (missing & Hm & Hreply & _).
  exists missing. auto.
Defined.

Lemma negative_mileage_cv_not_validated_witness :
  mileage negative_inputs < 0 /\ cv negative_inputs < 0 /\
  exists df,
    input_df training_model.features negative_inputs 2 1 = Ok df /\
    ("mileage", -85000) ∈ df /\ ("cv", -5) ∈ df /\
    exists r,
      predict_price str0 now0
        (loaded (constant (Finite (11 # 4))) brands models
           training_model.features) negative_inputs = Return r /\
      0 <= estimated_price_tnd r.
Proof.
  split; [reflexivity|]. split; [reflexivity|].
  destruct (negative_mileage_cv_not_validated str0 now0
              (constant (Finite (11 # 4))) brands models
              training_model.features negative_inputs)
    as (bc & mc & df & Hb & Hm & Hdf & Hmil & Hcv & _ & _ & Hret);
    [done | done |].
  injection Hb as <-. injection Hm as <-.
  exists df. split; [exact Hdf|].
  split; [apply Hmil; apply (bool_decide_unpack _); done|].
  split; [apply Hcv; apply (bool_decide_unpack _); done|].
  apply (Hret (Finite (11 # 4))); done.
Defined.

(** * Further properties of the two scripts *)

(** ** The order of labels and [np.unique] *)

Lemma ascii_compare_Lt_trans a b c :
  Ascii.compare a b = Lt -> Ascii.compare b c = Lt -> Ascii.compare a c = Lt.
Proof.
  unfold Ascii.compare. rewrite !N.compare_lt_iff. apply N.lt_trans.
Qed.

Lemma string_compare_Lt_trans s1 :
  forall s2 s3,
    String.compare s1 s2 = Lt -> String.compare s2 s3 = Lt ->
    String.compare s1 s3 = Lt.
Proof.
  induction s1 as [|a s1 IH]; intros [|b s2] [|c s3]; simpl; try done.
  destruct (Ascii.compare a b) eqn:Hab; [|intros _|done].
  - apply Ascii.compare_eq_iff in Hab as ->.
    destruct (Ascii.compare b c); [apply IH | done | done].
  - destruct (Ascii.compare b c) eqn:Hbc; [|intros _|done].
    + apply Ascii.compare_eq_iff in Hbc as <-. by rewrite Hab.
    + by rewrite (ascii_compare_Lt_trans a b c).
Qed.

Lemma string_compare_refl s : String.compare s s = Eq.
Proof.
  pose proof (String.compare_antisym s s) as H.
  destruct (String.compare s s); simpl in H; congruence.
Qed.

Lemma string_compare_Gt_Lt s x :
  String.compare s x = Gt -> String.compare x s = Lt.
Proof. intros H. rewrite String.compare_antisym, H. done. Qed.

Lemma ascending_cons_inv x l :
  ascending (x :: l) ->
  ascending l /\ Forall (fun y => String.compare x y = Lt) l.
Proof. intros H. by inversion H. Qed.

Lemma elem_of_insert_unique s l x :
  x ∈ insert_unique s l <-> x = s \/ x ∈ l.
Proof.
  induction l as [|y l IH]; simpl.
  - rewrite list_elem_of_singleton, elem_of_nil. tauto.
  - destruct (String.compare s y) eqn:Hc.
    + apply String.compare_eq_iff in Hc as ->. rewrite elem_of_cons. tauto.
    + apply elem_of_cons.
    + rewrite !elem_of_cons, IH. tauto.
Qed.

Lemma elem_of_np_unique l x : x ∈ np_unique l <-> x ∈ l.
Proof.
  unfold np_unique. induction l as [|y l IH]; simpl; [done|].
  rewrite elem_of_insert_unique, IH, elem_of_cons. done.
Qed.

Lemma insert_unique_ascending s l :
  ascending l -> ascending (insert_unique s l).
Proof.
  unfold ascending. induction 1 as [|y l Hl IH Hy]; simpl.
  - repeat constructor.
  - destruct (String.compare s y) eqn:Hc.
    + by constructor.
    + constructor; [by constructor|]. constructor; [done|].
      eapply Forall_impl; [exact Hy|]. intros z Hz.
      by eapply string_compare_Lt_trans.
    + constructor; [done|]. apply Forall_forall. intros z Hz.
      apply elem_of_insert_unique in Hz as [->|Hz].
      * by apply string_compare_Gt_Lt.
      * rewrite Forall_forall in Hy. auto.
Qed.

Lemma np_unique_ascending l : ascending (np_unique l).
Proof.
  unfold np_unique. induction l as [|y l IH]; simpl; [constructor|].
  by apply insert_unique_ascending.
Qed.

Lemma ascending_NoDup l : ascending l -> NoDup l.
Proof.
  induction 1 as [|y l Hl IH Hy]; constructor; [|done].
  intros Hin. rewrite Forall_forall in Hy.
  specialize (Hy _ Hin). by rewrite string_compare_refl in Hy.
Qed.

Lemma insert_unique_below s l :
  Forall (fun y => String.compare s y = Lt) l -> insert_unique s l = s :: l.
Proof. destruct 1 as [|y l Hy _]; simpl; [done|]. by rewrite Hy. Qed.

Lemma np_unique_ascending_id l : ascending l -> np_unique l = l.
Proof.
  unfold np_unique. induction 1 as [|y l Hl IH Hy]; simpl; [done|].
  rewrite IH. by apply insert_unique_below.
Qed.

Lemma ascending_ext l :
  forall l', ascending l -> ascending l' ->
    (forall x, x ∈ l <-> x ∈ l') -> l = l'.
Proof.
  induction l as [|x l IH]; intros [|x' l'] Hl Hl' Heq.
  - done.
  - exfalso. apply (not_elem_of_nil x'), Heq. left.
  - exfalso. apply (not_elem_of_nil x), Heq. left.
  - apply ascending_cons_inv in Hl as [Hl Hx].
    apply ascending_cons_inv in Hl' as [Hl' Hx'].
    rewrite Forall_forall in Hx, Hx'.
    assert (x = x') as <-.
    { assert (H1 : x ∈ x' :: l') by (apply Heq; left).
      assert (H2 : x' ∈ x :: l) by (apply Heq; left).
      apply elem_of_cons in H1 as [H1|H1]; [done|].
      apply elem_of_cons in H2 as [H2|H2]; [done|].
      specialize (Hx _ H2). specialize (Hx' _ H1).
      rewrite String.compare_antisym, Hx' in Hx. done. }
    f_equal. apply IH; [done..|]. intros z. split; intros Hz.
    + assert (Hz' : z ∈ x :: l') by (apply Heq; by right).
      apply elem_of_cons in Hz' as [->|Hz']; [|done].
      specialize (Hx _ Hz). by rewrite string_compare_refl in Hx.
    + assert (Hz' : z ∈ x :: l) by (apply Heq; by right).
      apply elem_of_cons in Hz' as [->|Hz']; [|done].
      specialize (Hx' _ Hz). by rewrite string_compare_refl in Hx'.
Qed.

Lemma index_of_lookup cs :
  NoDup cs -> forall i y, cs !! i = Some y -> index_of y cs = Some i.
Proof.
  induction 1 as [|c cs Hc Hnd IH]; intros i y; [done|].
  destruct i as [|i]; simpl.
  - intros [= ->]. by rewrite decide_True.
  - intros Hi. rewrite decide_False.
    + by rewrite (IH _ _ Hi).
    + intros ->. apply Hc. by eapply list_elem_of_lookup_2.
Qed.

Lemma index_of_is_Some y cs : y ∈ cs -> exists i, index_of y cs = Some i.
Proof.
  intros Hin. destruct (index_of y cs) as [i|] eqn:Hi; [eauto|].
  by apply index_of_None in Hi.
Qed.

(** ** The training table, row by row *)

Lemma frame_getitem_rows (l : list (training_model.Listing * Z * Z)) :
  frame_getitem ((fun '(r, b, m) => training_model.df_row r b m) <$> l)
    training_model.features
  = Ok ((fun '(r, b, m) => getitem_row r b m) <$> l).
Proof.
  induction l as [|[[r b] m] l IH]; [done|].
  change (bind (getitem_columns (training_model.df_row r b m)
                  training_model.features)
            (fun r' =>
               bind (frame_getitem
                       ((fun '(r, b, m) => training_model.df_row r b m) <$> l)
                       training_model.features)
                 (fun rest => Ok (r' :: rest)))
          = Ok (getitem_row r b m
                  :: ((fun '(r, b, m) => getitem_row r b m) <$> l))).
  rewrite IH. reflexivity.
Qed.

Lemma train_X csv :
  training_model.X (training_model.train csv)
  = Ok ((fun '(r, b, m) => getitem_row r b m)
          <$> training_model.zip3 (training_model.clean csv)
                (fit_transform
                   (training_model.brand <$> training_model.clean csv)).2
                (fit_transform
                   (training_model.model <$> training_model.clean csv)).2).
Proof.
  unfold training_model.train.
  destruct (fit_transform (training_model.brand <$> _)) as [leb bs].
  destruct (fit_transform (training_model.model <$> _)) as [lem ms].
  apply frame_getitem_rows.
Qed.

Lemma train_le_brand csv :
  training_model.le_brand (training_model.train csv)
  = fit (training_model.brand <$> training_model.clean csv).
Proof.
  unfold training_model.train.
  destruct (fit_transform (training_model.brand <$> _)) as [leb bs] eqn:Hb.
  destruct (fit_transform (training_model.model <$> _)) as [lem ms].
  simpl. by injection Hb.
Qed.

Lemma train_le_model csv :
  training_model.le_model (training_model.train csv)
  = fit (training_model.model <$> training_model.clean csv).
Proof.
  unfold training_model.train.
  destruct (fit_transform (training_model.brand <$> _)) as [leb bs].
  destruct (fit_transform (training_model.model <$> _)) as [lem ms] eqn:Hm.
  simpl. by injection Hm.
Qed.

Lemma train_y csv :
  training_model.y (training_model.train csv)
  = training_model.price <$> training_model.clean csv.
Proof.
  unfold training_model.train.
  destruct (fit_transform (training_model.brand <$> _)) as [leb bs].
  by destruct (fit_transform (training_model.model <$> _)) as [lem ms].
Qed.

Lemma zip3_length {A B C : Type} (xs : list A) :
  forall (ys : list B) (zs : list C),
    length ys = length xs -> length zs = length xs ->
    length (training_model.zip3 xs ys zs) = length xs.
Proof.
  induction xs as [|x xs IH]; intros [|y ys] [|z zs]; simpl; try done.
  intros Hy Hz. f_equal. apply IH; lia.
Qed.

Lemma zip3_lookup {A B C : Type} (xs : list A) :
  forall (ys : list B) (zs : list C) i x y z,
    xs !! i = Some x -> ys !! i = Some y -> zs !! i = Some z ->
    training_model.zip3 xs ys zs !! i = Some (x, y, z).
Proof.
  induction xs as [|x0 xs IH]; intros [|y0 ys] [|z0 zs] [|i] x y z;
    simpl; try done.
  - by intros [= ->] [= ->] [= ->].
  - apply IH.
Qed.

Lemma fit_transform_lookup ys i y :
  ys !! i = Some y ->
  exists k,
    (fit_transform ys).2 !! i = Some (Z.of_nat k) /\
    classes_ (fit ys) !! k = Some y.
Proof.
  intros Hi. unfold fit_transform. simpl.
  destruct (index_of_is_Some y (np_unique ys)) as [k Hk].
  { apply elem_of_np_unique. by eapply list_elem_of_lookup_2. }
  exists k. rewrite list_lookup_fmap, Hi. simpl. rewrite Hk. simpl.
  split; [done|]. by apply index_of_Some.
Qed.

(** ** Which globals pass the readiness check *)

Lemma globals_cases (g : Globals) :
  (backend.model g = None \/ brand_encoder g = None \/
   model_encoder g = None \/ feature_names g = None \/
   feature_names g = Some []) \/
  exists m be me names, names ≠ [] /\ g = loaded m be me names.
Proof.
  destruct g as [[m|] [be|] [me|] [[|n names]|]]; simpl; try tauto.
  right. exists m, be, me, (n :: names). done.
Qed.

Lemma predict_price_not_ready py_str now g car :
  backend.model g = None \/ brand_encoder g = None \/
  model_encoder g = None \/ feature_names g = None \/
  feature_names g = Some [] ->
  predict_price py_str now g car = RaiseHTTP service_unavailable.
Proof.
  intros [H|[H|[H|[H|H]]]];
    [apply predict_price_absent; tauto .. |].
  unfold predict_price. destruct g as [m be me names]. simpl in *. subst.
  by destruct m, be, me.
Qed.

Lemma predict_price_frame py_str now m be me names car bc mc df :
  names ≠ [] ->
  encoded be (brand car) = Ok bc ->
  encoded me (CarPredictionInput.model car) = Ok mc ->
  input_df names car bc mc = Ok df ->
  predict_price py_str now (loaded m be me names) car =
  match (let* prediction := predict m df in
         let* price := served_price prediction in
         Ok {| input := car;
               estimated_price_tnd := price;
               message := "Prediction successful";
               timestamp := now |}) with
  | Ok r => Return r
  | Raise e => RaiseHTTP (prediction_error py_str e)
  end.
Proof.
  intros Hne Hb Hm Hdf. label_codes Hb Hm.
  rewrite predict_price_loaded, try_body_codes by done.
  by rewrite Hdf.
Qed.

(** ** The endpoints *)

Section Endpoints.

Variable py_str : PyExn -> string.
Variable now : string.

Implicit Types (g : Globals) (m : Predictor) (be me : LabelEncoder)
  (names : list string) (car : CarPredictionInput.t) (bc mc : Z).

(** X1. A request is refused with the 500 reply exactly when a global is
    [None] or the feature-name list is empty. *)
Theorem service_unavailable_iff g car :
  predict_price py_str now g car = RaiseHTTP service_unavailable <->
  backend.model g = None \/ brand_encoder g = None \/
  model_encoder g = None \/ feature_names g = None \/
  feature_names g = Some [].
Proof.
  split; [|apply predict_price_not_ready].
  destruct (globals_cases g) as [H|(m & be & me & names & Hne & ->)];
    [done|].
  rewrite predict_price_loaded by done.
  destruct (try_body _ _ _ _ _ _); [done|].
  intros H. by injection H.
Qed.

(** X2. Every reply has one of three shapes: a response that echoes the
    request, with the fixed message, the time of the call and a price that is
    not negative; the 500 refusal; or a 400 error built from an exception. *)
Theorem reply_shape g car :
  (exists p,
      0 <= p /\
      predict_price py_str now g car =
      Return {| input := car;
                estimated_price_tnd := p;
                message := "Prediction successful";
                timestamp := now |}) \/
  predict_price py_str now g car = RaiseHTTP service_unavailable \/
  (exists exn,
      predict_price py_str now g car
      = RaiseHTTP (prediction_error py_str exn)).
Proof.
  destruct (globals_cases g) as [H|(m & be & me & names & Hne & ->)].
  { right. left. by apply predict_price_not_ready. }
  rewrite predict_price_loaded, try_body_codes by done.
  destruct (input_df _ _ _ _) as [df|e]; simpl; [|right; right; eauto].
  destruct (predict m df) as [v|e]; simpl; [|right; right; eauto].
  destruct (served_price v) as [p|e] eqn:Hp; simpl; [|right; right; eauto].
  left. exists p. split; [by eapply served_price_nonneg | done].
Qed.

(** X3. [GET /] reports [model_loaded] from the regressor alone. When it is
    false every prediction is refused; when it is true predictions are still
    refused as long as an encoder or the feature names are missing. *)
Theorem home_model_loaded_is_not_readiness g car :
  Home.status (home now g) = "alive" /\
  (Home.model_loaded (home now g) = true <-> backend.model g ≠ None) /\
  (Home.model_loaded (home now g) = false ->
   predict_price py_str now g car = RaiseHTTP service_unavailable) /\
  (backend.model g ≠ None ->
   brand_encoder g = None \/ model_encoder g = None \/
   feature_names g = None \/ feature_names g = Some [] ->
   Home.model_loaded (home now g) = true /\
   predict_price py_str now g car = RaiseHTTP service_unavailable).
Proof.
  split; [done|]. split; [|split].
  - unfold home. simpl. by destruct (backend.model g).
  - unfold home. simpl. intros H. apply predict_price_not_ready.
    left. by destruct (backend.model g).
  - intros Hm Hmiss. split.
    + unfold home. simpl. by destruct (backend.model g).
    + apply predict_price_not_ready. tauto.
Qed.

(** X4. A regressor output that is NaN or [-inf] is served as the price 0;
    an output of [+inf] makes the conversion to an integer fail, and the
    request ends in the 400 error of an [OverflowError]. *)
Theorem non_finite_prediction m be me names car bc mc df :
  names ≠ [] ->
  encoded be (brand car) = Ok bc ->
  encoded me (CarPredictionInput.model car) = Ok mc ->
  input_df names car bc mc = Ok df ->
  (predict m df = Ok NaN \/ predict m df = Ok NegInf ->
   predict_price py_str now (loaded m be me names) car =
   Return {| input := car;
             estimated_price_tnd := 0;
             message := "Prediction successful";
             timestamp := now |}) /\
  (predict m df = Ok PosInf ->
   predict_price py_str now (loaded m be me names) car =
   RaiseHTTP (prediction_error py_str OverflowError)).
Proof.
  intros Hne Hb Hm Hdf.
  rewrite (predict_price_frame py_str now m be me names car bc mc df)
    by done.
  split.
  - intros [-> | ->]; reflexivity.
  - intros ->. reflexivity.
Qed.

(** X5. An exception raised by the regressor, of whatever class, is not
    propagated and not replaced by a default: the request ends in the 400
    error carrying that exception. *)
Theorem regressor_exception_is_wrapped m be me names car bc mc df exn :
  names ≠ [] ->
  encoded be (brand car) = Ok bc ->
  encoded me (CarPredictionInput.model car) = Ok mc ->
  input_df names car bc mc = Ok df ->
  predict m df = Raise exn ->
  predict_price py_str now (loaded m be me names) car
  = RaiseHTTP (prediction_error py_str exn) /\
  status_code (prediction_error py_str exn) = 400 /\
  detail (prediction_error py_str exn) = "Prediction error: " +:+ py_str exn.
Proof.
  intros Hne Hb Hm Hdf Hexn.
  rewrite (predict_price_frame py_str now m be me names car bc mc df)
    by done.
  by rewrite Hexn.
Qed.

(** X9. The price or error of a reply depends on the request only through
    the seven encoded features: two requests with the same year, mileage and
    horsepower whose fuel types, transmissions, brands and models receive the
    same codes get the same price or the same error. *)
Theorem reply_depends_on_codes m be me names car car' :
  year car = year car' ->
  mileage car = mileage car' ->
  cv car = cv car' ->
  fuel_encoded (fuel_type car) = fuel_encoded (fuel_type car') ->
  transmission_encoded (transmission car)
  = transmission_encoded (transmission car') ->
  encoded be (brand car) = encoded be (brand car') ->
  encoded me (CarPredictionInput.model car)
  = encoded me (CarPredictionInput.model car') ->
  outcome (predict_price py_str now (loaded m be me names) car)
  = outcome (predict_price py_str now (loaded m be me names) car').
Proof.
  intros Hy Hmi Hcv Hf Ht Hb Hm.
  destruct names as [|n names]; [done|].
  rewrite !predict_price_loaded, !try_body_codes by done.
  rewrite !encoded_label_code in Hb, Hm.
  injection Hb as Hb. injection Hm as Hm.
  unfold input_df, input_data, age. rewrite Hy, Hmi, Hcv, Hf, Ht, Hb, Hm.
  destruct (getitem_columns _ _) as [df|e]; simpl; [|done].
  destruct (predict m df) as [v|e]; simpl; [|done].
  by destruct (served_price v).
Qed.

(** X13. The frame is built exactly when every feature name is one of the
    seven keys of the record, and then has one column per name, repeats
    included; otherwise the selection raises [KeyError] with the names that
    are not keys. *)
Theorem frame_built_iff names car bc mc :
  (names ⊆ training_model.features ->
   exists df, input_df names car bc mc = Ok df /\
              length df = length names) /\
  (~ names ⊆ training_model.features ->
   exists missing,
     input_df names car bc mc = Raise (KeyError missing) /\
     missing ≠ [] /\
     forall n, n ∈ missing <-> n ∈ names /\ n ∉ training_model.features).
Proof.
  split.
  - intros Hsub.
    destruct (getitem_columns_total (input_data car bc mc) names)
      as [df Hdf]; [by rewrite input_data_columns|].
    exists df. split; [done|].
    apply getitem_columns_columns in Hdf. unfold columns in Hdf.
    by rewrite <- Hdf, length_fmap.
  - intros Hnot. unfold input_df, getitem_columns.
    destruct (mapM _ names) as [df|] eqn:Hm.
    + exfalso. apply Hnot. intros n Hn.
      apply mapM_Some in Hm.
      apply list_elem_of_lookup in Hn as [i Hi].
      destruct (Forall2_lookup_l _ _ _ _ _ Hm Hi) as (c & _ & Hc).
      rewrite <- (input_data_columns car bc mc). apply assoc_is_Some.
      destruct (assoc n (input_data car bc mc)); [eauto | done].
    + eexists. split; [done|].
      assert (Hmem : forall n,
                 n ∈ filter (fun n => assoc n (input_data car bc mc) = None)
                       names
                 <-> n ∈ names /\ n ∉ training_model.features).
      { intros n. rewrite list_elem_of_filter, assoc_None, input_data_columns.
        tauto. }
      split; [|done].
      apply mapM_None, Exists_exists in Hm as (n & Hn & Hnone).
      intros Hnil.
      assert (Hin : n ∈ filter
                      (fun n => assoc n (input_data car bc mc) = None) names).
      { apply list_elem_of_filter. split; [|done].
        by destruct (assoc n (input_data car bc mc)). }
      rewrite Hnil in Hin. by apply elem_of_nil in Hin.
Qed.

End Endpoints.

(** ** The encoders *)

(** X6. The code a label receives in the training table is the code the
    serving path computes for the same label with the fitted encoder. *)
Theorem training_codes_match_serving (ys : list string) :
  Forall2 (fun y c => encoded (fit_transform ys).1 y = Ok c)
    ys (fit_transform ys).2.
Proof.
  unfold fit_transform. simpl. apply Forall2_fmap_r, Forall_Forall2_diag.
  apply Forall_forall. intros y Hy.
  rewrite encoded_label_code. unfold label_code. simpl.
  destruct (index_of_is_Some y (np_unique ys)) as [k ->];
    [by apply elem_of_np_unique | done].
Qed.

(** X7. The training codes of a column are dense: each lies in [0, K) for
    the K classes of the encoder, every number of that range is the code of
    some label of the column, and two labels get the same code exactly when
    they are the same string. *)
Theorem trained_codes_dense (ys : list string) :
  Forall (fun c => 0 <= c < Z.of_nat (length (classes_ (fit ys))))
    (fit_transform ys).2 /\
  (forall k, (k < length (classes_ (fit ys)))%nat ->
             Z.of_nat k ∈ (fit_transform ys).2) /\
  (forall i j y y' c c',
      ys !! i = Some y -> ys !! j = Some y' ->
      (fit_transform ys).2 !! i = Some c ->
      (fit_transform ys).2 !! j = Some c' ->
      (c = c' <-> y = y')).
Proof.
  split; [|split].
  - apply Forall_forall. intros c Hc.
    apply list_elem_of_lookup in Hc as [i Hi].
    assert (Hlt : (i < length ys)%nat).
    { apply lookup_lt_Some in Hi.
      by rewrite fit_transform_length in Hi. }
    apply lookup_lt_is_Some in Hlt as [y Hy].
    destruct (fit_transform_lookup ys i y Hy) as (k & Hk & Hcls).
    rewrite Hi in Hk. injection Hk as ->.
    apply lookup_lt_Some in Hcls. lia.
  - intros k Hk. apply lookup_lt_is_Some in Hk as [y Hy].
    assert (Hin : y ∈ ys).
    { apply elem_of_np_unique. by eapply list_elem_of_lookup_2. }
    apply list_elem_of_lookup in Hin as [i Hi].
    destruct (fit_transform_lookup ys i y Hi) as (k' & Hk' & Hcls).
    assert (k' = k) as ->.
    { pose proof (ascending_NoDup _ (np_unique_ascending ys)) as Hnd.
      apply (index_of_lookup _ Hnd) in Hy, Hcls. congruence. }
    by eapply list_elem_of_lookup_2.
  - intros i j y y' c c' Hi Hj Hc Hc'.
    destruct (fit_transform_lookup ys i y Hi) as (k & Hk & Hcls).
    destruct (fit_transform_lookup ys j y' Hj) as (k' & Hk' & Hcls').
    rewrite Hc in Hk. rewrite Hc' in Hk'.
    injection Hk as ->. injection Hk' as ->. split.
    + intros Heq. apply Nat2Z.inj in Heq as ->. congruence.
    + intros <-.
      pose proof (ascending_NoDup _ (np_unique_ascending ys)) as Hnd.
      apply (index_of_lookup _ Hnd) in Hcls, Hcls'. congruence.
Qed.

(** X8. The serving path yields the code [-1] exactly for the labels that
    are not classes of the encoder; a class gets its position, which is not
    negative, and the class at that position is the label. *)
Theorem sentinel_iff_unknown (le : LabelEncoder) (label : string) :
  (encoded le label = Ok (-1) <-> label ∉ classes_ le) /\
  (label ∈ classes_ le ->
   exists k, encoded le label = Ok (Z.of_nat k) /\
             classes_ le !! k = Some label /\
             (k < length (classes_ le))%nat).
Proof.
  rewrite encoded_label_code. split.
  - split.
    + intros [= H] Hin.
      destruct (label_code_known le label Hin) as [Hpos _]. lia.
    + intros Hout. by rewrite label_code_unknown.
  - intros Hin. unfold label_code.
    destruct (index_of_is_Some label (classes_ le) Hin) as [k Hk].
    rewrite Hk. exists k. split; [done|].
    apply index_of_Some in Hk. split; [done|]. by eapply lookup_lt_Some.
Qed.

(** X14. The classes of a fitted encoder are the labels of the column, each
    once, in strictly ascending order. *)
Theorem fit_classes (ys : list string) :
  ascending (classes_ (fit ys)) /\
  NoDup (classes_ (fit ys)) /\
  (forall y, y ∈ classes_ (fit ys) <-> y ∈ ys).
Proof.
  split; [apply np_unique_ascending|].
  split; [apply ascending_NoDup, np_unique_ascending|].
  intros y. apply elem_of_np_unique.
Qed.

(** X15. The fitted encoder depends only on the set of labels of the column,
    not on their order or multiplicity; in particular fitting again on the
    classes gives the same encoder. *)
Theorem fit_depends_on_label_set (ys ys' : list string) :
  (forall y, y ∈ ys <-> y ∈ ys') ->
  fit ys = fit ys' /\ fit (classes_ (fit ys)) = fit ys.
Proof.
  intros Heq. unfold fit. simpl. split; f_equal.
  - apply ascending_ext; [apply np_unique_ascending..|].
    intros y. by rewrite !elem_of_np_unique.
  - apply np_unique_ascending_id, np_unique_ascending.
Qed.

(** ** The training script *)

(** X10. The listings of the file split, with their multiplicities, into
    those kept and those whose price is not positive: a listing with a
    positive price is kept as often as it occurs and in its place, a listing
    with a zero or negative price is dropped. So the targets are the prices
    of the kept listings, all positive, and the feature table is built
    without error with one row per target. *)
Theorem training_targets_positive (csv : list training_model.Listing) :
  (forall l, l ∈ training_model.clean csv
             <-> l ∈ csv /\ 0 < training_model.price l) /\
  training_model.clean csv `sublist_of` csv /\
  csv ≡ₚ (training_model.clean csv
          ++ filter (fun l => training_model.price l <= 0) csv)%list /\
  (forall l rest,
      0 < training_model.price l ->
      training_model.clean (l :: rest) = l :: training_model.clean rest) /\
  (forall l rest,
      training_model.price l <= 0 ->
      training_model.clean (l :: rest) = training_model.clean rest) /\
  (forall before after,
      training_model.clean (before ++ after)%list
      = (training_model.clean before ++ training_model.clean after)%list) /\
  training_model.y (training_model.train csv)
  = training_model.price <$> training_model.clean csv /\
  Forall (fun p => 0 < p) (training_model.y (training_model.train csv)) /\
  exists rows,
    training_model.X (training_model.train csv) = Ok rows /\
    length rows = length (training_model.clean csv) /\
    length rows = length (training_model.y (training_model.train csv)).
Proof.
  split; [|split; [|split; [|split; [|split; [|split; [|split; [|split]]]]]]].
  - intros l. unfold training_model.clean. rewrite list_elem_of_filter. tauto.
  - apply sublist_filter.
  - unfold training_model.clean.
    induction csv as [|l csv IH]; [done|].
    rewrite !filter_cons.
    destruct (decide (0 < training_model.price l)),
      (decide (training_model.price l <= 0)); try lia.
    + simpl. by f_equiv.
    + rewrite <- Permutation_middle. by f_equiv.
  - intros l rest Hl. unfold training_model.clean.
    by rewrite filter_cons, decide_True.
  - intros l rest Hl. unfold training_model.clean.
    rewrite filter_cons, decide_False by lia. done.
  - intros before after. unfold training_model.clean. apply filter_app.
  - apply train_y.
  - rewrite train_y. apply Forall_fmap, Forall_forall. intros l Hl.
    unfold training_model.clean in Hl.
    by apply list_elem_of_filter in Hl as [Hp _].
  - eexists. split; [apply train_X|].
    assert (Hlen : length
                     ((fun '(r, b, m) => getitem_row r b m)
                        <$> training_model.zip3 (training_model.clean csv)
                              (fit_transform
                                 (training_model.brand
                                    <$> training_model.clean csv)).2
                              (fit_transform
                                 (training_model.model
                                    <$> training_model.clean csv)).2)
                   = length (training_model.clean csv)).
    { rewrite length_fmap.
      apply zip3_length; by rewrite fit_transform_length, length_fmap. }
    split; [exact Hlen|]. by rewrite Hlen, train_y, length_fmap.
Qed.

(** X11. Every row of the training table has exactly the persisted feature
    names as its columns, in that order, so neither the price nor the text
    of brand and model is a column; and with the persisted names the serving
    frame has the same columns: it is the record as written. *)
Theorem training_table_columns (csv : list training_model.Listing)
  (car : CarPredictionInput.t) (bc mc : Z) :
  exists rows,
    training_model.X (training_model.train csv) = Ok rows /\
    Forall (fun r =>
              columns r
              = training_model.feature_names_pkl (training_model.train csv))
      rows /\
    Forall (fun r => ("price" ∉ columns r) /\ ("brand" ∉ columns r)
                     /\ ("model" ∉ columns r)) rows /\
    input_df (training_model.feature_names_pkl (training_model.train csv))
      car bc mc = Ok (input_data car bc mc) /\
    Forall (fun r => columns r = columns (input_data car bc mc)) rows.
Proof.
  eexists. split; [apply train_X|]. rewrite train_feature_names.
  assert (Hcols : forall l,
             Forall (fun r : Row training_model.cell =>
                       columns r = training_model.features)
               ((fun '(r, b, m) => getitem_row r b m) <$> l)).
  { intros l. apply Forall_fmap, Forall_forall. by intros [[r b] m] _. }
  split; [apply Hcols|]. split; [|split; [done|]].
  - eapply Forall_impl; [apply Hcols|]. intros r ->.
    repeat split; apply (bool_decide_unpack _); by vm_compute.
  - eapply Forall_impl; [apply Hcols|]. by intros r ->.
Qed.

(** X12. In the row of the training table built from a kept listing, the
    numeric columns hold the listing's own values and the two encoded
    columns hold positions in the fitted classes at which the listing's
    brand and model stand. *)
Theorem training_codes_decode (csv : list training_model.Listing) (i : nat)
  (l : training_model.Listing) :
  training_model.clean csv !! i = Some l ->
  exists rows r b c,
    training_model.X (training_model.train csv) = Ok rows /\
    rows !! i = Some r /\
    r = getitem_row l (Z.of_nat b) (Z.of_nat c) /\
    assoc "mileage" r = Some (training_model.Num (training_model.mileage l)) /\
    assoc "cv" r = Some (training_model.Num (training_model.cv l)) /\
    assoc "brand_encoded" r = Some (training_model.Num (Z.of_nat b)) /\
    assoc "model_encoded" r = Some (training_model.Num (Z.of_nat c)) /\
    classes_ (training_model.le_brand (training_model.train csv)) !! b
    = Some (training_model.brand l) /\
    classes_ (training_model.le_model (training_model.train csv)) !! c
    = Some (training_model.model l).
Proof.
  intros Hl.
  destruct (fit_transform_lookup
              (training_model.brand <$> training_model.clean csv) i
              (training_model.brand l)) as (b & Hb & Hbcls).
  { by rewrite list_lookup_fmap, Hl. }
  destruct (fit_transform_lookup
              (training_model.model <$> training_model.clean csv) i
              (training_model.model l)) as (c & Hc & Hccls).
  { by rewrite list_lookup_fmap, Hl. }
  eexists _, (getitem_row l (Z.of_nat b) (Z.of_nat c)), b, c.
  split; [apply train_X|]. split.
  { rewrite list_lookup_fmap.
    by rewrite (zip3_lookup _ _ _ _ _ _ _ Hl Hb Hc). }
  rewrite train_le_brand, train_le_model. done.
Qed.

(** ** The served price as a function of the raw prediction *)

(** X16. On finite predictions the served price is monotone: a larger
    prediction is never served as a smaller price. It depends on the value of
    the prediction only, and an integral prediction [z] is served as
    [max(0, z)]. *)
Theorem served_price_monotone (q q' : Q) :
  (q <= q')%Q ->
  exists p p',
    served_price (Finite q) = Ok p /\
    served_price (Finite q') = Ok p' /\
    p <= p' /\
    ((q == q')%Q -> p = p') /\
    forall z, served_price (Finite (inject_Z z)) = Ok (Z.max 0 z).
Proof.
  intros Hle. exists (Z.max 0 (Qfloor q)), (Z.max 0 (Qfloor q')).
  rewrite !served_price_Finite. do 2 (split; [done|]).
  pose proof (Qfloor_resp_le _ _ Hle) as Hfl. split; [lia|]. split.
  - intros Heq.
    assert (Hge : (q' <= q)%Q) by (rewrite Heq; apply Qle_refl).
    pose proof (Qfloor_resp_le _ _ Hge). lia.
  - intros z. rewrite served_price_Finite. by rewrite Qfloor_Z.
Qed.

(** ** The further properties on the sample data *)

Lemma home_model_loaded_is_not_readiness_witness :
  backend.model (startup no_encoder_files) ≠ None /\
  brand_encoder (startup no_encoder_files) = None /\
  Home.model_loaded (home now0 (startup no_encoder_files)) = true /\
  predict_price str0 now0 (startup no_encoder_files) kia_rio
  = RaiseHTTP service_unavailable.
Proof.
  split; [done|]. split; [reflexivity|].
  apply (home_model_loaded_is_not_readiness str0 now0
           (startup no_encoder_files) kia_rio); [done|].
  left. reflexivity.
Defined.

Lemma non_finite_prediction_witness :
  predict (constant NaN) (input_data kia_rio 2 1) = Ok NaN /\
  predict_price str0 now0
    (loaded (constant NaN) brands models training_model.features) kia_rio
  = Return {| input := kia_rio;
              estimated_price_tnd := 0;
              message := "Prediction successful";
              timestamp := now0 |}.
Proof.
  split; [reflexivity|].
  refine (proj1 (non_finite_prediction str0 now0 (constant NaN) brands models
                   training_model.features kia_rio 2 1
                   (input_data kia_rio 2 1) _ _ _ _) _);
    [done | reflexivity.. | left; reflexivity].
Defined.

Lemma regressor_exception_is_wrapped_witness :
  predict (failing (ValueError ["bad frame"])) (input_data kia_rio 2 1)
  = Raise (ValueError ["bad frame"]) /\
  predict_price str0 now0
    (loaded (failing (ValueError ["bad frame"])) brands models
       training_model.features) kia_rio
  = RaiseHTTP (prediction_error str0 (ValueError ["bad frame"])).
Proof.
  split; [reflexivity|].
  refine (proj1 (regressor_exception_is_wrapped str0 now0
                   (failing (ValueError ["bad frame"])) brands models
                   training_model.features kia_rio 2 1
                   (input_data kia_rio 2 1) (ValueError ["bad frame"])
                   _ _ _ _ _));
    [done | reflexivity..].
Defined.

Lemma reply_depends_on_codes_witness :
  brand unknown_brand ≠ brand other_unknown_brand /\
  fuel_type unknown_brand ≠ fuel_type other_unknown_brand /\
  outcome (predict_price str0 now0
             (loaded (constant (Finite (11 # 4))) brands models
                training_model.features) unknown_brand)
  = outcome (predict_price str0 now0
               (loaded (constant (Finite (11 # 4))) brands models
                  training_model.features) other_unknown_brand).
Proof.
  split; [done|]. split; [done|].
  apply reply_depends_on_codes; reflexivity.
Defined.

Lemma frame_built_iff_witness :
  ~ stale_names ⊆ training_model.features /\
  exists missing,
    input_df stale_names kia_rio 2 1 = Raise (KeyError missing) /\
    missing ≠ [].
Proof.
  assert (Hnot : ~ stale_names ⊆ training_model.features).
  { intros Hsub.
    assert (Hin : "color" ∈ training_model.features).
    { apply Hsub. apply (bool_decide_unpack _). done. }
    revert Hin. apply (bool_decide_unpack _). done. }
  split; [exact Hnot|].
  destruct (proj2 (frame_built_iff stale_names kia_rio 2 1) Hnot)
    as (missing & Hraise & Hne & _).
  exists missing. auto.
Defined.

Lemma fit_depends_on_label_set_witness :
  fit ["Kia"; "BMW"; "Audi"; "Kia"] = fit ["Audi"; "Kia"; "BMW"].
Proof.
  refine (proj1 (fit_depends_on_label_set
                   ["Kia"; "BMW"; "Audi"; "Kia"] ["Audi"; "Kia"; "BMW"] _)).
  intros y. rewrite !elem_of_cons, !elem_of_nil. tauto.
Defined.

Lemma training_codes_decode_witness :
  training_model.clean csv !! 0%nat
  = Some {| training_model.price := 42000; training_model.year := 2019;
            training_model.brand := "Kia"; training_model.model := "Rio";
            training_model.mileage := 60000; training_model.cv := 5;
            training_model.fuel_type := 0;
            training_model.transmission := 0 |} /\
  exists b,
    classes_ (training_model.le_brand (training_model.train csv)) !! b
    = Some "Kia".
Proof.
  split; [reflexivity|].
  destruct (training_codes_decode csv 0 _ eq_refl)
    as (rows & r & b & c & _ & _ & _ & _ & _ & _ & _ & Hb & _).
  exists b. exact Hb.
Defined.

Lemma served_price_monotone_witness :
  (5 # 2 <= 11 # 4)%Q /\
  exists p p',
    served_price (Finite (5 # 2)) = Ok p /\
    served_price (Finite (11 # 4)) = Ok p' /\
    p <= p'.
Proof.
  assert (Hle : (5 # 2 <= 11 # 4)%Q) by (unfold Qle; simpl; lia).
  split; [exact Hle|].
  destruct (served_price_monotone (5 # 2) (11 # 4) Hle)
    as (p & p' & Hp & Hp' & Hpp & _).
  exists p, p'. auto.
Defined.
